(** * The greeting handler and its bootstrap wrapper (src/main.py)

    A shallow embedding of [get_current_time] and [main].  Python objects
    the handler can reach (its two arguments and the system clock) live in
    a [World]; a call is a function from worlds to an outcome and a world,
    so that what a call reads, in which order, and what it leaves untouched
    can be stated.  External libraries (pydantic, the C library's strftime,
    the function-stream framework) are not part of the repository: pydantic's
    field validation is written out for the one field [User] declares, the
    platform's strftime is a section variable, and what the framework's
    constructor, [start] and [close] end in is chosen by the environment. *)

From Stdlib Require Import NArith ZArith Ascii String Strings.Byte List.
From stdpp Require Import base option strings gmap list.

Local Open Scope N_scope.
#[local] Set Warnings "-register-all".

(** ** Python values *)

(** The values a [Dict[str, Any]] payload or a configuration entry can
    hold.  [PyStr] is any instance of [str] (an enum member that mixes in
    [str] included) and [PyBytes] stands for both [bytes] and [bytearray].
    [PyEnum] is a member of an [enum.Enum] class that is no [str], with the
    text [str(member.value)]; [PyFloat] holds the bits of a float and
    [PyObject] is an object of any other type. *)
Inductive PyVal : Type :=
| PyNone
| PyBool (b : bool)
| PyInt (n : Z)
| PyStr (s : string)
| PyBytes (bs : list byte)
| PyList (items : list PyVal)
| PyDict (items : list (string * PyVal))
| PyTuple (items : list PyVal)
| PyFloat (bits : N)
| PyEnum (member : string) (value_str : string)
| PyObject (type_name : string) (id : N).

(** ** Exceptions *)

(** pydantic's error types for a required [str] field. *)
Inductive ErrorType : Type :=
| missing          (* the key is absent *)
| string_type      (* the input is of a type a str field does not take *)
| string_unicode.  (* bytes that are not UTF-8 *)

Inductive PyExc : Type :=
| ValidationError (loc : string) (type : ErrorType)
| TypeError
| ValueError
| RuntimeError
| ConnectionError
| KeyboardInterrupt
| SystemExit
| CancelledError.

(** [isinstance(e, Exception)]: [KeyboardInterrupt], [SystemExit] and
    [asyncio.CancelledError] (since Python 3.8) derive from [BaseException]
    only. *)
Definition isinstance_Exception (e : PyExc) : bool :=
  match e with
  | KeyboardInterrupt | SystemExit | CancelledError => false
  | _ => true
  end.

Definition is_ValidationError (e : PyExc) : bool :=
  match e with ValidationError _ _ => true | _ => false end.

(** ** Calls with effects and exceptions *)

Inductive Outcome (A : Type) : Type :=
| Return (a : A)
| Raise (e : PyExc).
Arguments Return {A} a.
Arguments Raise {A} e.

Definition M (S A : Type) : Type := S → Outcome A * S.

#[global] Instance M_ret {S} : MRet (M S) := λ A a s, (Return a, s).

#[global] Instance M_bind {S} : MBind (M S) := λ A B f m s,
  match m s with
  | (Return a, s') => f a s'
  | (Raise e, s') => (Raise e, s')
  end.

(** [try: body except <classes>: handler]; [handles e] says whether the
    except clause matches [e]. *)
Definition try_except {S A} (body : M S A) (handles : PyExc → bool)
    (handler : PyExc → M S A) : M S A := λ s,
  match body s with
  | (Return a, s') => (Return a, s')
  | (Raise e, s') => if handles e then handler e s' else (Raise e, s')
  end.

(** [try: body finally: final].  The final block always runs; when it
    raises, its exception replaces the outcome of the body. *)
Definition try_finally {S A} (body : M S A) (final : M S unit) : M S A := λ s,
  match body s with
  | (o, s') =>
    match final s' with
    | (Return _, s'') => (o, s'')
    | (Raise e, s'') => (Raise e, s'')
    end
  end.

(** ** pydantic: [class User(BaseModel): name: str] *)

Record User : Type := { name : string }.

Definition in_range (lo hi : N) (b : byte) : bool :=
  (lo <=? Byte.to_N b) && (Byte.to_N b <=? hi).

Definition continuation (b : byte) : bool := in_range 0x80 0xBF b.

(** Well-formed UTF-8 (no overlong forms, no surrogates, nothing above
    U+10FFFF), which is what decoding [bytes] into a [str] requires. *)
Fixpoint utf8_well_formed (bs : list byte) : bool :=
  match bs with
  | [] => true
  | b0 :: r0 =>
    if in_range 0x00 0x7F b0 then utf8_well_formed r0 else
    match r0 with
    | [] => false
    | b1 :: r1 =>
      if in_range 0xC2 0xDF b0 then continuation b1 && utf8_well_formed r1 else
      match r1 with
      | [] => false
      | b2 :: r2 =>
        if in_range 0xE0 0xE0 b0 then
          in_range 0xA0 0xBF b1 && continuation b2 && utf8_well_formed r2
        else if in_range 0xE1 0xEC b0 || in_range 0xEE 0xEF b0 then
          continuation b1 && continuation b2 && utf8_well_formed r2
        else if in_range 0xED 0xED b0 then
          in_range 0x80 0x9F b1 && continuation b2 && utf8_well_formed r2
        else
        match r2 with
        | [] => false
        | b3 :: r3 =>
          if in_range 0xF0 0xF0 b0 then
            in_range 0x90 0xBF b1 && continuation b2 && continuation b3
            && utf8_well_formed r3
          else if in_range 0xF1 0xF3 b0 then
            continuation b1 && continuation b2 && continuation b3
            && utf8_well_formed r3
          else if in_range 0xF4 0xF4 b0 then
            in_range 0x80 0x8F b1 && continuation b2 && continuation b3
            && utf8_well_formed r3
          else false
        end
      end
    end
  end.

(** The validator of a [str] field.  [User] sets no strict mode, so
    pydantic validates in its default lax mode: a [str] is taken as it is,
    [bytes] and [bytearray] are decoded as UTF-8, an enum member is taken
    as [str(member.value)], and every other type is refused. *)
Definition validate_str (v : PyVal) : ErrorType + string :=
  match v with
  | PyStr s => inr s
  | PyBytes bs =>
    if utf8_well_formed bs then inr (string_of_list_byte bs)
    else inl string_unicode
  | PyEnum _ value_str => inr value_str
  | _ => inl string_type
  end.

(** [User.model_validate(data)] on a dict: [name] is required; keys the
    model does not declare are ignored (pydantic's default [extra]). *)
Definition model_validate (data : gmap string PyVal) : Outcome User :=
  match data !! "name" with
  | None => Raise (ValidationError "name" missing)
  | Some v =>
    match validate_str v with
    | inr s => Return {| name := s |}
    | inl t => Raise (ValidationError "name" t)
    end
  end.

(** ** datetime and strftime *)

Record datetime : Type := {
  year : N; month : N; day : N;
  hour : N; minute : N; second : N;
  microsecond : N
}.

Definition digit (n : N) : ascii := ascii_of_N (48 + n mod 10).

(** [n] in decimal on exactly [width] digits, zero padded. *)
Fixpoint zero_pad (width : nat) (n : N) : string :=
  match width with
  | O => ""
  | S w => zero_pad w (n / 10) +:+ String (digit n) ""
  end.

(** The ranges in which the numeric directives below print the same on
    every platform: four digits for the year, two for the others. *)
Definition portable_datetime (t : datetime) : bool :=
  (1000 <=? year t) && (year t <=? 9999)
  && (1 <=? month t) && (month t <=? 12)
  && (1 <=? day t) && (day t <=? 31)
  && (hour t <=? 23) && (minute t <=? 59) && (second t <=? 59).

Definition directive (c : ascii) (t : datetime) : option string :=
  if decide (c = "Y"%char) then Some (zero_pad 4 (year t))
  else if decide (c = "m"%char) then Some (zero_pad 2 (month t))
  else if decide (c = "d"%char) then Some (zero_pad 2 (day t))
  else if decide (c = "H"%char) then Some (zero_pad 2 (hour t))
  else if decide (c = "M"%char) then Some (zero_pad 2 (minute t))
  else if decide (c = "S"%char) then Some (zero_pad 2 (second t))
  else if decide (c = "%"%char) then Some "%"
  else None.

(** Field substitution for patterns made of literal characters and the
    directives [%Y %m %d %H %M %S %%].  [None] means the pattern leaves
    this fragment (another directive, a lone [%] at the end, a NUL), where
    the result depends on the platform. *)
Fixpoint substitute (t : datetime) (fmt : string) : option string :=
  match fmt with
  | EmptyString => Some ""
  | String c rest =>
    if decide (c = "%"%char) then
      match rest with
      | EmptyString => None
      | String d rest' =>
        field ← directive d t;
        tail ← substitute t rest';
        Some (field +:+ tail)
      end
    else if decide (c = "000"%char) then None
    else String c <$> substitute t rest
  end.

Definition strftime_portable (t : datetime) (fmt : string) : option string :=
  if portable_datetime t then substitute t fmt else None.

(** A platform's strftime agrees with the portable fragment. *)
Definition renders_portable
    (platform : datetime → string → Outcome string) : Prop :=
  ∀ t fmt s, strftime_portable t fmt = Some s → platform t fmt = Return s.

(** A platform that renders the portable fragment and refuses every other
    pattern with a [ValueError]. *)
Definition portable_only_strftime (t : datetime) (fmt : string)
    : Outcome string :=
  match strftime_portable t fmt with
  | Some s => Return s
  | None => Raise ValueError
  end.

(** What a platform that refuses no pattern makes of it: the numeric
    directives are rendered, a [%] with a letter it does not know and a
    lone [%] at the end are copied as they stand, and a NUL ends the
    pattern. *)
Fixpoint copy_unknown (t : datetime) (fmt : string) : string :=
  match fmt with
  | EmptyString => ""
  | String c rest =>
    if decide (c = "%"%char) then
      match rest with
      | EmptyString => "%"
      | String d rest' =>
        match directive d t with
        | Some field => field +:+ copy_unknown t rest'
        | None => String "%" (String d (copy_unknown t rest'))
        end
      end
    else if decide (c = "000"%char) then ""
    else String c (copy_unknown t rest)
  end.

(** A lenient platform.  On patterns whose directive letters are the seven
    above or letters the C library leaves undefined, such as [%Q], this is
    what CPython 3.11 returns on glibc. *)
Definition lenient_strftime (t : datetime) (fmt : string) : Outcome string :=
  Return (copy_unknown t fmt).

(** ** The configuration accessor (src/test_main.py) *)

(** The framework's [FSContext] is not in the repository; the accessor
    modelled is the one the tests pass in its place. *)

Record MockFSContext : Type := { _config : gmap string PyVal }.

(** [__init__(self, config_format)]: [self._config = {"format": config_format}]. *)
Definition MockFSContext_init (config_format : PyVal) : MockFSContext :=
  {| _config := {[ "format" := config_format ]} |}.

(** The default of [config_format]. *)
Definition MockFSContext_default : MockFSContext :=
  MockFSContext_init (PyStr "%Y-%m-%d %H:%M:%S").

(** [self._config.get(key)]: [None] when the key is absent. *)
Definition MockFSContext_get_config (self : MockFSContext) (key : string)
    : PyVal :=
  default PyNone (_config self !! key).

(** ** The world of one invocation *)

(** The calls the handler makes, in the order it makes them. *)
Inductive Call : Type :=
| Call_model_validate
| Call_now
| Call_get_config (key : string)
| Call_strftime.

(** Both arguments of the handler are passed by reference: the payload
    dict and the context object are [w_data] and [w_context].  [w_clock] is
    the value the system clock holds during the invocation and [w_calls]
    records the calls made so far. *)
Record World : Type := {
  w_data : gmap string PyVal;
  w_context : MockFSContext;
  w_clock : datetime;
  w_calls : list Call
}.

Definition enter (context : MockFSContext) (data : gmap string PyVal)
    (clock : datetime) : World :=
  {| w_data := data; w_context := context; w_clock := clock; w_calls := [] |}.

Definition called (c : Call) (w : World) : World :=
  {| w_data := w_data w; w_context := w_context w; w_clock := w_clock w;
     w_calls := w_calls w ++ [c] |}.

(** The world after the four calls of a complete run. *)
Definition after_all_calls (w : World) : World :=
  called Call_strftime
    (called (Call_get_config "format")
       (called Call_now (called Call_model_validate w))).

Section Handler.

(** [time.strftime] of the platform, on a [str] pattern. *)
Variable platform_strftime : datetime → string → Outcome string.

(** [User.model_validate(data)] *)
Definition User_model_validate : M World User := λ w,
  (model_validate (w_data w), called Call_model_validate w).

(** [datetime.datetime.now()] *)
Definition datetime_now : M World datetime := λ w,
  (Return (w_clock w), called Call_now w).

(** [context.get_config(key)] *)
Definition context_get_config (key : string) : M World PyVal := λ w,
  (Return (MockFSContext_get_config (w_context w) key),
   called (Call_get_config key) w).

(** [now.strftime(format)]: the argument must be a [str]. *)
Definition render (now : datetime) (format : PyVal) : Outcome string :=
  match format with
  | PyStr fmt => platform_strftime now fmt
  | _ => Raise TypeError
  end.

Definition strftime (now : datetime) (format : PyVal) : M World string :=
  λ w, (render now format, called Call_strftime w).

(** The f-string of the return statement. *)
Definition greeting (name formatted_time : string) : string :=
  "Hi, " +:+ name +:+ ", the current time is " +:+ formatted_time +:+ ".".

Definition get_current_time : M World (gmap string PyVal) :=
  user ← User_model_validate;
  now ← datetime_now;
  time_format ← context_get_config "format";
  formatted ← strftime now time_format;
  mret {[ "result" := PyStr (greeting (name user) formatted) ]}.

End Handler.

(** A test fixture: the clock of src/test_main.py. *)
Definition mock_now : datetime :=
  {| year := 2025; month := 8; day := 30;
     hour := 12; minute := 30; second := 45; microsecond := 0 |}.

(** ** The bootstrap wrapper [main] *)

(** What the wrapper does to the outside, in order.  [Constructed] is the
    call of the constructor, with the names it registers. *)
Inductive Event : Type :=
| Printed (text : string)
| Constructed (process_funcs : list string)
| Awaited_start
| Awaited_close.

Section Bootstrap.

(** What the call [FSFunction(process_funcs=...)] and awaiting
    [function.start()] and [function.close()] end in; the framework
    decides. *)
Variables construct_outcome start_outcome close_outcome : Outcome unit.

(** [str(e)], as the f-string of the except clause formats it. *)
Variable str : PyExc → string.

(** Whether a SIGINT made the runner of [asyncio.run] cancel the main
    task (Python 3.11 and later). *)
Variable interrupted : bool.

Definition emit (ev : Event) : M (list Event) unit := λ log,
  (Return (), log ++ [ev]).

Definition print (text : string) : M (list Event) unit :=
  emit (Printed text).

(** [function = FSFunction(process_funcs={"getCurrentTime": ...})] *)
Definition FSFunction_new : M (list Event) unit := λ log,
  (construct_outcome, log ++ [Constructed ["getCurrentTime"]]).

Definition function_start : M (list Event) unit := λ log,
  (start_outcome, log ++ [Awaited_start]).

Definition function_close : M (list Event) unit := λ log,
  (close_outcome, log ++ [Awaited_close]).

Definition error_line (e : PyExc) : string :=
  String "010" ("An error occurred: " +:+ str e).

(** The constructor is called before the [try]: when it raises, the
    wrapper raises at once. *)
Definition main : M (list Event) unit :=
  FSFunction_new;;
  try_finally
    (try_except
       (print "Starting agent function service...";; function_start)
       isinstance_Exception
       (λ e, print (error_line e)))
    function_close.

Definition is_KeyboardInterrupt (e : PyExc) : bool :=
  match e with KeyboardInterrupt => true | _ => false end.

(** [asyncio.run(coro)] runs the coroutine to its end and passes on what
    it returns or raises, but for one case: when the runner cancelled the
    main task on a SIGINT and the task ends in a CancelledError, it raises
    KeyboardInterrupt in its place. *)
Definition asyncio_run (coro : M (list Event) unit) : M (list Event) unit :=
  λ log,
  match coro log with
  | (Raise CancelledError, log') =>
    if interrupted then (Raise KeyboardInterrupt, log')
    else (Raise CancelledError, log')
  | (o, log') => (o, log')
  end.

(** The [__main__] block. *)
Definition script : M (list Event) unit :=
  try_except (asyncio_run main) is_KeyboardInterrupt
    (λ _, print (String "010" "Service stopped")).

End Bootstrap.

(** ** The tests of src/test_main.py *)

(** Equality of values is decidable; [result == expected] on dicts whose
    values are strings is this equality. *)
Definition PyVal_eq_dec : ∀ a b : PyVal, {a = b} + {a ≠ b}.
Proof.
  fix go 1. intros a b. decide equality.
  - apply bool_dec.
  - apply Z.eq_dec.
  - apply string_dec.
  - apply (List.list_eq_dec Byte.byte_eq_dec).
  - apply (List.list_eq_dec go).
  - apply List.list_eq_dec. intros [k v] [k' v'].
    destruct (string_dec k k') as [->|Hk]; [|right; congruence].
    destruct (go v v') as [->|Hv]; [left; reflexivity | right; congruence].
  - apply (List.list_eq_dec go).
  - apply N.eq_dec.
  - apply string_dec.
  - apply string_dec.
  - apply N.eq_dec.
  - apply string_dec.
Defined.

#[global] Instance PyVal_eq_decision : EqDecision PyVal := PyVal_eq_dec.

(** How a test method ends: its assertion holds, its assertion fails, or
    an exception is raised before the assertion is reached. *)
Inductive TestResult : Type :=
| Passed
| AssertionFailed
| Errored (e : PyExc).

Section Tests.

Variable platform_strftime : datetime → string → Outcome string.

(** The Act and Assert steps: the handler is called with
    [datetime.datetime.now()] patched to return [mock_now], then
    [assert result == expected]. *)
Definition act_and_assert (context : MockFSContext)
    (data expected : gmap string PyVal) : TestResult :=
  match fst (get_current_time platform_strftime (enter context data mock_now)) with
  | Raise e => Errored e
  | Return result =>
    if decide (result = expected) then Passed else AssertionFailed
  end.

Definition test_get_current_time_default_format : TestResult :=
  let context := MockFSContext_default in
  let data : gmap string PyVal := {[ "test" := PyStr "data" ]} in
  act_and_assert context data
    {[ "result" := PyStr "The current time is 2025-08-30 12:30:45." ]}.

Definition test_get_current_time_custom_format : TestResult :=
  let context := MockFSContext_init (PyStr "%H:%M") in
  let data : gmap string PyVal := {[ "test" := PyStr "data" ]} in
  act_and_assert context data
    {[ "result" := PyStr "The current time is 12:30." ]}.

End Tests.

(** * Properties *)

(** ** Test runs *)

Example zero_pad_8 : zero_pad 2 8 = "08".
Proof. reflexivity. Qed.

Example substitute_iso :
  strftime_portable mock_now "%Y-%m-%d %H:%M:%S" = Some "2025-08-30 12:30:45".
Proof. vm_compute. reflexivity. Qed.

Example substitute_outside : strftime_portable mock_now "%Q" = None.
Proof. vm_compute. reflexivity. Qed.

Example utf8_ascii : utf8_well_formed (list_byte_of_string "Bob") = true.
Proof. reflexivity. Qed.

Example utf8_two_bytes : utf8_well_formed [xc3; xa9] = true.
Proof. reflexivity. Qed.

Example utf8_four_bytes : utf8_well_formed [xf0; x9f; x98; x80] = true.
Proof. reflexivity. Qed.

Example utf8_stray_continuation : utf8_well_formed [x81] = false.
Proof. reflexivity. Qed.

Example utf8_overlong : utf8_well_formed [xc0; x80] = false.
Proof. reflexivity. Qed.

Example utf8_surrogate : utf8_well_formed [xed; xa0; x80] = false.
Proof. reflexivity. Qed.

Example utf8_truncated : utf8_well_formed [xe2; x82] = false.
Proof. reflexivity. Qed.

Example validate_int :
  model_validate {[ "name" := PyInt 123 ]}
  = Raise (ValidationError "name" string_type).
Proof. reflexivity. Qed.

Example validate_bad_bytes :
  model_validate {[ "name" := PyBytes [x81] ]}
  = Raise (ValidationError "name" string_unicode).
Proof. reflexivity. Qed.

Example validate_none :
  model_validate {[ "name" := PyNone ]}
  = Raise (ValidationError "name" string_type).
Proof. reflexivity. Qed.

Example validate_enum :
  model_validate {[ "name" := PyEnum "TWO" "2" ]} = Return {| name := "2" |}.
Proof. reflexivity. Qed.

Example validate_float :
  model_validate {[ "name" := PyFloat 0 ]}
  = Raise (ValidationError "name" string_type).
Proof. reflexivity. Qed.

Example validate_object :
  model_validate {[ "name" := PyObject "Decimal" 1 ]}
  = Raise (ValidationError "name" string_type).
Proof. reflexivity. Qed.

Example lenient_lone_percent : lenient_strftime mock_now "%" = Return "%".
Proof. reflexivity. Qed.

Example lenient_nul :
  lenient_strftime mock_now (String "a" (String "000" "b")) = Return "a".
Proof. reflexivity. Qed.

Example lenient_numeric :
  lenient_strftime mock_now "%H:%M" = Return "12:30".
Proof. vm_compute. reflexivity. Qed.

Example run_enum :
  fst (get_current_time portable_only_strftime
         (enter (MockFSContext_init (PyStr "%H:%M"))
                {[ "name" := PyEnum "RED" "red" ]} mock_now))
  = Return {[ "result" := PyStr "Hi, red, the current time is 12:30." ]}.
Proof. vm_compute. reflexivity. Qed.

Example run_alice :
  fst (get_current_time portable_only_strftime
         (enter (MockFSContext_init (PyStr "%H:%M"))
                {[ "name" := PyStr "Alice" ]} mock_now))
  = Return {[ "result" := PyStr "Hi, Alice, the current time is 12:30." ]}.
Proof. vm_compute. reflexivity. Qed.

Example main_clean_run str :
  main (Return ()) (Return ()) (Return ()) str []
  = (Return (),
     [Constructed ["getCurrentTime"];
      Printed "Starting agent function service...";
      Awaited_start; Awaited_close]).
Proof. reflexivity. Qed.

Example constructor_failure_run start_outcome close_outcome str :
  main (Raise RuntimeError) start_outcome close_outcome str []
  = (Raise RuntimeError, [Constructed ["getCurrentTime"]]).
Proof. reflexivity. Qed.

(** ** What one invocation does *)

(** The handler, path by path. *)
Lemma get_current_time_run platform (w : World) :
  get_current_time platform w =
  match model_validate (w_data w) with
  | Raise e => (Raise e, called Call_model_validate w)
  | Return user =>
    match render platform (w_clock w)
            (MockFSContext_get_config (w_context w) "format") with
    | Return formatted =>
      (Return {[ "result" := PyStr (greeting (name user) formatted) ]},
       after_all_calls w)
    | Raise e => (Raise e, after_all_calls w)
    end
  end.
Proof.
  unfold get_current_time, mbind, M_bind, User_model_validate.
  destruct (model_validate (w_data w)) as [user|e]; [|reflexivity].
  cbn. unfold after_all_calls.
  destruct (render platform _ _); reflexivity.
Qed.

Lemma after_all_calls_calls (w : World) :
  w_calls (after_all_calls w)
  = w_calls w ++ [Call_model_validate; Call_now;
                  Call_get_config "format"; Call_strftime].
Proof. cbn. rewrite <- !app_assoc. reflexivity. Qed.

Lemma model_validate_str (data : gmap string PyVal) (nm : string) :
  data !! "name" = Some (PyStr nm) →
  model_validate data = Return {| name := nm |}.
Proof. intros H. unfold model_validate. rewrite H. reflexivity. Qed.

Lemma model_validate_raises (data : gmap string PyVal) (e : PyExc) :
  model_validate data = Raise e → ∃ t, e = ValidationError "name" t.
Proof.
  unfold model_validate.
  destruct (data !! "name") as [v|]; [destruct (validate_str v)|];
    intros [= <-]; eauto.
Qed.

Lemma portable_only_renders_portable : renders_portable portable_only_strftime.
Proof.
  intros t fmt s H. unfold portable_only_strftime. rewrite H. reflexivity.
Qed.

Lemma substitute_literal (t : datetime) (c : ascii) (rest : string) :
  c ≠ "%"%char → c ≠ "000"%char →
  substitute t (String c rest) = String c <$> substitute t rest.
Proof. intros Hc Hc0. cbn. repeat case_decide; congruence. Qed.

Lemma copy_unknown_literal (t : datetime) (c : ascii) (rest : string) :
  c ≠ "%"%char → c ≠ "000"%char →
  copy_unknown t (String c rest) = String c (copy_unknown t rest).
Proof. intros Hc Hc0. cbn. repeat case_decide; congruence. Qed.

(** Where the portable fragment renders, the lenient platform renders the
    same. *)
Lemma substitute_copy_unknown (t : datetime) (fmt : string) :
  (∀ s, substitute t fmt = Some s → copy_unknown t fmt = s)
  ∧ (∀ c s, substitute t (String c fmt) = Some s →
            copy_unknown t (String c fmt) = s).
Proof.
  induction fmt as [|d rest [IHrest IHcons]].
  - split; [cbn; congruence |].
    intros c s. cbn. repeat case_decide; cbn; congruence.
  - split; [exact (IHcons d) |].
    intros c s. destruct (decide (c = "%"%char)) as [->|Hc].
    + cbn -[directive].
      destruct (directive d t) as [field|]; [|discriminate].
      destruct (substitute t rest) as [tail|]; [|discriminate].
      cbn. intros [= <-]. rewrite (IHrest tail eq_refl). reflexivity.
    + destruct (decide (c = "000"%char)) as [->|Hc0]; [discriminate |].
      rewrite substitute_literal, copy_unknown_literal by assumption.
      destruct (substitute t (String d rest)) as [tail|] eqn:Htail;
        [|discriminate].
      change (Some (String c tail) = Some s
              → String c (copy_unknown t (String d rest)) = s).
      intros [= <-]. rewrite (IHcons d tail Htail). reflexivity.
Qed.

Lemma lenient_renders_portable : renders_portable lenient_strftime.
Proof.
  intros t fmt s. unfold strftime_portable, lenient_strftime.
  destruct (portable_datetime t); [|discriminate].
  intros Hs. rewrite (proj1 (substitute_copy_unknown t fmt) s Hs). reflexivity.
Qed.

(** A run whose payload carries a string under [name]. *)
Lemma run_with_name platform (w : World) (nm : string) :
  w_data w !! "name" = Some (PyStr nm) →
  get_current_time platform w =
  match render platform (w_clock w)
          (MockFSContext_get_config (w_context w) "format") with
  | Return formatted =>
    (Return {[ "result" := PyStr (greeting nm formatted) ]}, after_all_calls w)
  | Raise e => (Raise e, after_all_calls w)
  end.
Proof.
  intros Hname.
  rewrite get_current_time_run, (model_validate_str _ _ Hname). reflexivity.
Qed.

Lemma run_greets platform (w : World) (nm fmt formatted : string) :
  w_data w !! "name" = Some (PyStr nm) →
  MockFSContext_get_config (w_context w) "format" = PyStr fmt →
  platform (w_clock w) fmt = Return formatted →
  get_current_time platform w
  = (Return {[ "result" := PyStr (greeting nm formatted) ]}, after_all_calls w).
Proof.
  intros Hname Hfmt Hrender.
  rewrite (run_with_name _ _ _ Hname), Hfmt. cbn. rewrite Hrender. reflexivity.
Qed.

(** The world a run leaves differs from the one it found in the record of
    calls only. *)
Lemma run_frame platform (w : World) :
  w_data (snd (get_current_time platform w)) = w_data w
  ∧ w_context (snd (get_current_time platform w)) = w_context w
  ∧ w_clock (snd (get_current_time platform w)) = w_clock w.
Proof.
  rewrite get_current_time_run.
  destruct (model_validate (w_data w)); [destruct (render platform _ _) |];
    done.
Qed.

(** The outcome is a function of the payload, the accessor and the clock
    value. *)
Lemma outcome_ext platform (w w' : World) :
  w_data w = w_data w' → w_context w = w_context w' → w_clock w = w_clock w' →
  fst (get_current_time platform w) = fst (get_current_time platform w').
Proof.
  intros Hdata Hcontext Hclock.
  rewrite !get_current_time_run, Hdata, Hcontext, Hclock.
  destruct (model_validate (w_data w')); [destruct (render platform _ _) |];
    reflexivity.
Qed.

(** ** The greeting *)



(** C2: with the clock at 2025-08-30 12:30:45 and the payload
    [{"name": "Alice"}], the format ["%Y-%m-%d %H:%M:%S"] gives
    ["Hi, Alice, the current time is 2025-08-30 12:30:45."] and the format
    ["%H:%M"] gives ["Hi, Alice, the current time is 12:30."], on every
    platform whose strftime renders the numeric directives. *)
Theorem alice_at_fixed_clock platform :
  renders_portable platform →
  fst (get_current_time platform
         (enter (MockFSContext_init (PyStr "%Y-%m-%d %H:%M:%S"))
                {[ "name" := PyStr "Alice" ]} mock_now))
  = Return {[ "result" :=
      PyStr "Hi, Alice, the current time is 2025-08-30 12:30:45." ]}
  ∧
  fst (get_current_time platform
         (enter (MockFSContext_init (PyStr "%H:%M"))
                {[ "name" := PyStr "Alice" ]} mock_now))
  = Return {[ "result" := PyStr "Hi, Alice, the current time is 12:30." ]}.
Proof.
  intros Hplatform. split.
  - rewrite (run_greets platform _ "Alice" "%Y-%m-%d %H:%M:%S"
               "2025-08-30 12:30:45"); [reflexivity ..|].
    apply Hplatform. vm_compute. reflexivity.
  - rewrite (run_greets platform _ "Alice" "%H:%M" "12:30");
      [reflexivity ..|].
    apply Hplatform. vm_compute. reflexivity.
Qed.

Lemma alice_at_fixed_clock_witness :
  renders_portable portable_only_strftime
  ∧ fst (get_current_time portable_only_strftime
           (enter (MockFSContext_init (PyStr "%Y-%m-%d %H:%M:%S"))
                  {[ "name" := PyStr "Alice" ]} mock_now))
    = Return {[ "result" :=
        PyStr "Hi, Alice, the current time is 2025-08-30 12:30:45." ]}.
Proof.
  split; [exact portable_only_renders_portable |].
  exact (proj1 (alice_at_fixed_clock portable_only_strftime
                  portable_only_renders_portable)).
Defined.

(** C7: the payload [{"name": ""}] passes validation, which looks at the
    type of [name] only, and with a pattern the platform accepts the handler
    returns [{"result": "Hi, , the current time is {formatted_time}."}]. *)
Theorem empty_name_accepted platform (context : MockFSContext)
    (clock : datetime) (fmt formatted : string) :
  MockFSContext_get_config context "format" = PyStr fmt →
  platform clock fmt = Return formatted →
  model_validate {[ "name" := PyStr "" ]} = Return {| name := "" |}
  ∧ fst (get_current_time platform
           (enter context {[ "name" := PyStr "" ]} clock))
    = Return {[ "result" :=
        PyStr ("Hi, , the current time is " +:+ formatted +:+ ".") ]}.
Proof.
  intros Hfmt Hrender. split; [reflexivity |].
  rewrite (run_greets platform _ "" fmt formatted);
    [reflexivity | reflexivity | exact Hfmt | exact Hrender].
Qed.

Lemma empty_name_accepted_witness :
  MockFSContext_get_config (MockFSContext_init (PyStr "%H:%M")) "format"
  = PyStr "%H:%M"
  ∧ portable_only_strftime mock_now "%H:%M" = Return "12:30"
  ∧ fst (get_current_time portable_only_strftime
           (enter (MockFSContext_init (PyStr "%H:%M"))
                  {[ "name" := PyStr "" ]} mock_now))
    = Return {[ "result" := PyStr "Hi, , the current time is 12:30." ]}.
Proof.
  assert (Hfmt : MockFSContext_get_config (MockFSContext_init (PyStr "%H:%M"))
                   "format" = PyStr "%H:%M") by (vm_compute; reflexivity).
  assert (Hrender : portable_only_strftime mock_now "%H:%M" = Return "12:30")
    by (vm_compute; reflexivity).
  split; [exact Hfmt |]. split; [exact Hrender |].
  exact (proj2 (empty_name_accepted portable_only_strftime
                  (MockFSContext_init (PyStr "%H:%M")) mock_now
                  "%H:%M" "12:30" Hfmt Hrender)).
Defined.

(** ** Validation failures *)

(** [b"Bob"] under [name]: not a string, and the call succeeds. *)
Lemma bytes_name_run :
  fst (get_current_time portable_only_strftime
         (enter (MockFSContext_init (PyStr "%H:%M"))
                {[ "name" := PyBytes (list_byte_of_string "Bob") ]} mock_now))
  = Return {[ "result" := PyStr "Hi, Bob, the current time is 12:30." ]}.
Proof. vm_compute. reflexivity. Qed.

(** C3, as stated, fails: a payload whose [name] is not a string but
    [bytes] that decode as UTF-8 is not refused. *)
Lemma bytes_name_not_refused :
  ¬ (∀ platform (w : World),
       (w_data w !! "name" = None
        ∨ ∃ v, w_data w !! "name" = Some v ∧ ∀ s, v ≠ PyStr s) →
       ∃ loc t, fst (get_current_time platform w)
                = Raise (ValidationError loc t)).
Proof.
  intros Hclaim.
  destruct (Hclaim portable_only_strftime
              (enter (MockFSContext_init (PyStr "%H:%M"))
                     {[ "name" := PyBytes (list_byte_of_string "Bob") ]}
                     mock_now)) as (loc & t & Hrun).
  - right. exists (PyBytes (list_byte_of_string "Bob")).
    split; [reflexivity | discriminate].
  - rewrite bytes_name_run in Hrun. discriminate Hrun.
Qed.

(** C3, amended: when [name] is missing, or is neither a string, nor
    bytes that decode as UTF-8, nor an enum member, the handler fails with
    a ValidationError on [name], raised by the validation call, and there
    is no output payload. *)
Theorem invalid_name_rejected platform (w : World) :
  (w_data w !! "name" = None
   ∨ ∃ v, w_data w !! "name" = Some v
          ∧ (∀ s, v ≠ PyStr s)
          ∧ (∀ bs, v = PyBytes bs → utf8_well_formed bs = false)
          ∧ (∀ member value_str, v ≠ PyEnum member value_str)) →
  ∃ t, get_current_time platform w
       = (Raise (ValidationError "name" t), called Call_model_validate w).
Proof.
  intros Hbad. rewrite get_current_time_run. unfold model_validate.
  destruct Hbad as [-> | (v & -> & Hstr & Hbytes & Henum)]; [eauto |].
  destruct v as [ | | |s|bs| | | | |member value_str| ]; cbn; eauto.
  - destruct (Hstr s). reflexivity.
  - rewrite (Hbytes bs eq_refl). eauto.
  - destruct (Henum member value_str). reflexivity.
Qed.

Lemma invalid_name_rejected_witness :
  let w := enter MockFSContext_default {[ "test" := PyStr "data" ]} mock_now in
  w_data w !! "name" = None
  ∧ ∃ t, get_current_time portable_only_strftime w
         = (Raise (ValidationError "name" t), called Call_model_validate w).
Proof.
  intros w.
  assert (Hmissing : w_data w !! "name" = None) by (vm_compute; reflexivity).
  split; [exact Hmissing |].
  exact (invalid_name_rejected portable_only_strftime w (or_introl Hmissing)).
Defined.

(** ** Formatting failures *)

(** A pattern outside what the platform takes is refused when rendering. *)
Example unknown_directive_run :
  get_current_time portable_only_strftime
    (enter (MockFSContext_init (PyStr "%Q")) {[ "name" := PyStr "Alice" ]}
           mock_now)
  = (Raise ValueError,
     after_all_calls
       (enter (MockFSContext_init (PyStr "%Q")) {[ "name" := PyStr "Alice" ]}
              mock_now)).
Proof. vm_compute. reflexivity. Qed.

(** [%Q] is no directive of strftime; the lenient platform copies it. *)
Example unknown_directive_greeted :
  fst (get_current_time lenient_strftime
         (enter (MockFSContext_init (PyStr "%Q")) {[ "name" := PyStr "Alice" ]}
                mock_now))
  = Return {[ "result" := PyStr "Hi, Alice, the current time is %Q." ]}.
Proof. vm_compute. reflexivity. Qed.

(** C4, as stated, fails: a malformed pattern does not make the handler
    fail on every platform.  With the pattern [%Q] and a platform that
    copies the directives it does not know, the handler returns a
    greeting. *)
Lemma unknown_directive_not_refused :
  ¬ (∀ platform, renders_portable platform →
     ∀ (w : World) (nm : string),
       w_data w !! "name" = Some (PyStr nm) →
       _config (w_context w) !! "format" = Some (PyStr "%Q") →
       ∃ e, fst (get_current_time platform w) = Raise e).
Proof.
  intros Hclaim.
  destruct (Hclaim lenient_strftime lenient_renders_portable
              (enter (MockFSContext_init (PyStr "%Q"))
                     {[ "name" := PyStr "Alice" ]} mock_now)
              "Alice") as [e Hrun]; [reflexivity | reflexivity |].
  rewrite unknown_directive_greeted in Hrun. discriminate Hrun.
Qed.

(** C4, amended: with a string under [name], when the accessor holds
    nothing under [format] (the lookup gives [None], which strftime refuses
    with a TypeError) or holds a pattern the platform's strftime refuses,
    the handler fails with the exception of the strftime call: it is raised
    after validation, the clock read and the configuration lookup, by the
    fourth call. *)
Theorem format_error_at_render platform (w : World) (nm : string) :
  w_data w !! "name" = Some (PyStr nm) →
  (_config (w_context w) !! "format" = None
   ∨ ∃ fmt e, _config (w_context w) !! "format" = Some (PyStr fmt)
              ∧ platform (w_clock w) fmt = Raise e) →
  ∃ e, get_current_time platform w = (Raise e, after_all_calls w)
       ∧ render platform (w_clock w)
           (MockFSContext_get_config (w_context w) "format") = Raise e
       ∧ (_config (w_context w) !! "format" = None → e = TypeError)
       ∧ w_calls (after_all_calls w)
         = w_calls w ++ [Call_model_validate; Call_now;
                         Call_get_config "format"; Call_strftime].
Proof.
  intros Hname Hformat. rewrite (run_with_name _ _ _ Hname).
  assert (Hrender : ∃ e,
            render platform (w_clock w)
              (MockFSContext_get_config (w_context w) "format") = Raise e
            ∧ (_config (w_context w) !! "format" = None → e = TypeError)).
  { unfold MockFSContext_get_config.
    destruct Hformat as [Hnone | (fmt & e & Hsome & Hraise)].
    - rewrite Hnone. exists TypeError. split; [reflexivity | done].
    - rewrite Hsome. exists e. split; [exact Hraise | ].
      intros Hnone. congruence. }
  destruct Hrender as (e & Hrender & Hmissing). rewrite Hrender.
  exists e. auto using after_all_calls_calls.
Qed.

Lemma format_error_at_render_witness :
  let w := enter {| _config := ∅ |} {[ "name" := PyStr "Alice" ]} mock_now in
  w_data w !! "name" = Some (PyStr "Alice")
  ∧ _config (w_context w) !! "format" = None
  ∧ ∃ e, get_current_time portable_only_strftime w
         = (Raise e, after_all_calls w)
         ∧ render portable_only_strftime (w_clock w)
             (MockFSContext_get_config (w_context w) "format") = Raise e
         ∧ (_config (w_context w) !! "format" = None → e = TypeError)
         ∧ w_calls (after_all_calls w)
           = w_calls w ++ [Call_model_validate; Call_now;
                           Call_get_config "format"; Call_strftime].
Proof.
  intros w.
  assert (Hname : w_data w !! "name" = Some (PyStr "Alice"))
    by (vm_compute; reflexivity).
  assert (Hnone : _config (w_context w) !! "format" = None)
    by (vm_compute; reflexivity).
  split; [exact Hname |]. split; [exact Hnone |].
  exact (format_error_at_render portable_only_strftime w "Alice" Hname
           (or_introl Hnone)).
Defined.

(** ** Order of the steps and effects *)

(** C6: the handler validates the payload, then reads the clock, then
    looks up [format], then renders.  When validation fails, the
    ValidationError is the outcome and the validation call is the only call
    made: neither the clock nor the accessor has been consulted. *)
Theorem steps_in_order platform (w : World) :
  match model_validate (w_data w) with
  | Raise e =>
    is_ValidationError e = true
    ∧ get_current_time platform w = (Raise e, called Call_model_validate w)
    ∧ w_calls (called Call_model_validate w)
      = w_calls w ++ [Call_model_validate]
  | Return _ =>
    w_calls (snd (get_current_time platform w))
    = w_calls w ++ [Call_model_validate; Call_now;
                    Call_get_config "format"; Call_strftime]
  end.
Proof.
  rewrite get_current_time_run.
  destruct (model_validate (w_data w)) as [user|e] eqn:Hvalid.
  - destruct (render platform _ _); apply after_all_calls_calls.
  - destruct (model_validate_raises _ _ Hvalid) as [t ->]. done.
Qed.

(** C8: whether it returns or raises, the handler leaves the payload
    mapping and the configuration accessor as they were; the clock is
    read, not set, and the record of calls is only added to. *)
Theorem arguments_untouched platform (w : World) :
  let w' := snd (get_current_time platform w) in
  w_data w' = w_data w
  ∧ w_context w' = w_context w
  ∧ w_clock w' = w_clock w
  ∧ ∃ calls, w_calls w' = w_calls w ++ calls.
Proof.
  cbv zeta. rewrite get_current_time_run.
  destruct (model_validate (w_data w)) as [user|e].
  - assert (Hcalls := after_all_calls_calls w).
    destruct (render platform _ _); cbn [snd]; eauto 6.
  - cbn. eauto 6.
Qed.

(** ** What the output depends on *)

(** C5: with the same clock value, configuration and payload, two
    invocations give the same outcome, whatever was called before; so does
    an invocation repeated in the world the first one left. *)
Theorem same_inputs_same_output platform (context : MockFSContext)
    (data : gmap string PyVal) (clock : datetime) (calls1 calls2 : list Call) :
  let w1 := {| w_data := data; w_context := context; w_clock := clock;
               w_calls := calls1 |} in
  let w2 := {| w_data := data; w_context := context; w_clock := clock;
               w_calls := calls2 |} in
  fst (get_current_time platform w1) = fst (get_current_time platform w2)
  ∧ fst (get_current_time platform (snd (get_current_time platform w1)))
    = fst (get_current_time platform w1).
Proof.
  intros w1 w2. split.
  - apply outcome_ext; reflexivity.
  - destruct (run_frame platform w1) as (Hdata & Hcontext & Hclock).
    apply outcome_ext; assumption.
Qed.



(** ** The bootstrap wrapper *)

(** The service is interrupted while it runs: the wrapper awaits
    [close()] and lets the exception through, without the error line. *)
Example interrupted_run :
  main (Return ()) (Raise KeyboardInterrupt) (Return ()) (λ _, "") []
  = (Raise KeyboardInterrupt,
     [Constructed ["getCurrentTime"];
      Printed "Starting agent function service...";
      Awaited_start; Awaited_close]).
Proof. reflexivity. Qed.

(** The [__main__] block is where that exception ends. *)
Example interrupted_script :
  script (Return ()) (Raise KeyboardInterrupt) (Return ()) (λ _, "") false []
  = (Return (),
     [Constructed ["getCurrentTime"];
      Printed "Starting agent function service...";
      Awaited_start; Awaited_close;
      Printed (String "010" "Service stopped")]).
Proof. reflexivity. Qed.

(** An [Exception] is caught and its line printed. *)
Example failed_run :
  main (Return ()) (Raise ConnectionError) (Return ()) (λ _, "refused") []
  = (Return (),
     [Constructed ["getCurrentTime"];
      Printed "Starting agent function service...";
      Awaited_start;
      Printed (String "010" "An error occurred: refused");
      Awaited_close]).
Proof. reflexivity. Qed.

(** C10, as stated, fails: not every exception raised while the service
    runs is caught and logged by the wrapper. *)
Lemma interrupt_not_caught :
  ¬ (∀ (start_outcome close_outcome : Outcome unit) (str : PyExc → string)
       (e : PyExc),
       start_outcome = Raise e →
       Printed (error_line str e)
         ∈ snd (main (Return ()) start_outcome close_outcome str [])
       ∧ (close_outcome = Return () →
          fst (main (Return ()) start_outcome close_outcome str [])
          = Return ())).
Proof.
  intros Hclaim.
  destruct (Hclaim (Raise KeyboardInterrupt) (Return ()) (λ _, "")
              KeyboardInterrupt eq_refl) as [_ Hcaught].
  specialize (Hcaught eq_refl). rewrite interrupted_run in Hcaught.
  discriminate Hcaught.
Qed.

(** C10, amended: once the function object is constructed, the wrapper
    prints the start line and awaits [start()] once.  An exception that is
    an instance of [Exception] is caught and its error line printed; one
    that is not (KeyboardInterrupt, SystemExit, CancelledError) is neither
    caught nor printed.  In each of these cases, normal completion
    included, [close()] is awaited next and is the last thing done:
    [start()] is not awaited again.  The wrapper then returns, or raises
    what [close()] raised, or else the exception it did not catch.  When
    the constructor raises, which happens before the [try], the wrapper
    raises at once: nothing is printed and nothing awaited. *)
Theorem main_logs_and_closes
    (construct_outcome start_outcome close_outcome : Outcome unit)
    (str : PyExc → string) (log : list Event) :
  main construct_outcome start_outcome close_outcome str log
  = match construct_outcome with
    | Raise e0 => (Raise e0, log ++ [Constructed ["getCurrentTime"]])
    | Return _ =>
      (match close_outcome, start_outcome with
       | Raise e', _ => Raise e'
       | Return _, Raise e =>
         if isinstance_Exception e then Return () else Raise e
       | Return _, Return _ => Return ()
       end,
       log
       ++ [Constructed ["getCurrentTime"];
           Printed "Starting agent function service...";
           Awaited_start]
       ++ match start_outcome with
          | Raise e =>
            if isinstance_Exception e then [Printed (error_line str e)] else []
          | Return _ => []
          end
       ++ [Awaited_close])
    end.
Proof.
  unfold main, try_finally, try_except, mbind, M_bind, emit, print,
    FSFunction_new, function_start, function_close.
  destruct construct_outcome as [[]|e0]; [|reflexivity].
  destruct start_outcome as [[]|e], close_outcome as [[]|e']; cbn;
    try destruct (isinstance_Exception e); cbn;
    rewrite <- ?app_assoc; reflexivity.
Qed.

(** ** Names given as bytes *)

(** The payloads that validate to a given name. *)
Lemma model_validate_returns (data : gmap string PyVal) (nm : string) :
  model_validate data = Return {| name := nm |} ↔
  data !! "name" = Some (PyStr nm)
  ∨ (∃ bs, data !! "name" = Some (PyBytes bs)
           ∧ utf8_well_formed bs = true
           ∧ nm = string_of_list_byte bs)
  ∨ ∃ member, data !! "name" = Some (PyEnum member nm).
Proof.
  unfold model_validate. split.
  - destruct (data !! "name") as [v|]; [|discriminate].
    destruct v as [ | | |s|bs| | | | |member value_str| ]; cbn;
      try discriminate.
    + intros [= ->]. left. reflexivity.
    + destruct (utf8_well_formed bs) eqn:Hbs; [|discriminate].
      intros [= <-]. right. left. exists bs. auto.
    + intros [= ->]. right. right. exists member. reflexivity.
  - intros [-> | [(bs & -> & Hbs & ->) | (member & ->)]]; cbn;
      [reflexivity | | reflexivity].
    rewrite Hbs. reflexivity.
Qed.

(** X2: a [name] given as well-formed UTF-8 bytes is greeted by its
    decoded text. *)
Theorem bytes_name_greeted platform (w : World) (bs : list byte)
    (fmt formatted : string) :
  w_data w !! "name" = Some (PyBytes bs) →
  utf8_well_formed bs = true →
  MockFSContext_get_config (w_context w) "format" = PyStr fmt →
  platform (w_clock w) fmt = Return formatted →
  fst (get_current_time platform w)
  = Return {[ "result" :=
      PyStr ("Hi, " +:+ string_of_list_byte bs +:+ ", the current time is "
             +:+ formatted +:+ ".") ]}.
Proof.
  intros Hname Hbs Hfmt Hrender.
  assert (Hvalid : model_validate (w_data w)
                   = Return {| name := string_of_list_byte bs |}).
  { apply model_validate_returns. right. left. exists bs. auto. }
  rewrite get_current_time_run, Hvalid, Hfmt. cbn. rewrite Hrender.
  reflexivity.
Qed.

Lemma bytes_name_greeted_witness :
  let w := enter (MockFSContext_init (PyStr "%H:%M"))
                 {[ "name" := PyBytes [xc3; x89; x76; x61] ]} mock_now in
  w_data w !! "name" = Some (PyBytes [xc3; x89; x76; x61])
  ∧ utf8_well_formed [xc3; x89; x76; x61] = true
  ∧ MockFSContext_get_config (w_context w) "format" = PyStr "%H:%M"
  ∧ portable_only_strftime (w_clock w) "%H:%M" = Return "12:30"
  ∧ fst (get_current_time portable_only_strftime w)
    = Return {[ "result" :=
        PyStr ("Hi, " +:+ string_of_list_byte [xc3; x89; x76; x61]
               +:+ ", the current time is " +:+ "12:30" +:+ ".") ]}.
Proof.
  intros w.
  assert (Hname : w_data w !! "name" = Some (PyBytes [xc3; x89; x76; x61]))
    by (vm_compute; reflexivity).
  assert (Hbs : utf8_well_formed [xc3; x89; x76; x61] = true)
    by (vm_compute; reflexivity).
  assert (Hfmt : MockFSContext_get_config (w_context w) "format"
                 = PyStr "%H:%M") by (vm_compute; reflexivity).
  assert (Hrender : portable_only_strftime (w_clock w) "%H:%M"
                    = Return "12:30") by (vm_compute; reflexivity).
  split; [exact Hname |]. split; [exact Hbs |]. split; [exact Hfmt |].
  split; [exact Hrender |].
  exact (bytes_name_greeted portable_only_strftime w [xc3; x89; x76; x61]
           "%H:%M" "12:30" Hname Hbs Hfmt Hrender).
Defined.

(** ** The configuration *)



(** X4: [format] is the only key of the configuration the handler
    consumes: two accessors that agree on it give the same outcome for the
    same payload and clock value. *)
Theorem other_config_keys_ignored platform (c1 c2 : MockFSContext)
    (data : gmap string PyVal) (clock : datetime) :
  _config c1 !! "format" = _config c2 !! "format" →
  fst (get_current_time platform (enter c1 data clock))
  = fst (get_current_time platform (enter c2 data clock)).
Proof.
  intros Hformat. rewrite !get_current_time_run. cbn.
  unfold MockFSContext_get_config. rewrite Hformat.
  destruct (model_validate data); [destruct (render platform _ _) |];
    reflexivity.
Qed.

Lemma other_config_keys_ignored_witness :
  let c1 := MockFSContext_init (PyStr "%H:%M") in
  let c2 := {| _config := <[ "timeout" := PyInt 30 ]> (_config c1) |} in
  _config c1 !! "format" = _config c2 !! "format"
  ∧ fst (get_current_time portable_only_strftime
           (enter c1 {[ "name" := PyStr "Alice" ]} mock_now))
    = fst (get_current_time portable_only_strftime
             (enter c2 {[ "name" := PyStr "Alice" ]} mock_now)).
Proof.
  intros c1 c2.
  assert (Hformat : _config c1 !! "format" = _config c2 !! "format")
    by (vm_compute; reflexivity).
  split; [exact Hformat |].
  exact (other_config_keys_ignored portable_only_strftime c1 c2
           {[ "name" := PyStr "Alice" ]} mock_now Hformat).
Defined.

(** X5: the accessor of the tests answers [format] with the value it was
    built with and every other key with [None]. *)
Theorem mock_context_lookup (config_format : PyVal) (key : string) :
  MockFSContext_get_config (MockFSContext_init config_format) key
  = if decide (key = "format") then config_format else PyNone.
Proof.
  unfold MockFSContext_get_config, MockFSContext_init. cbn [_config].
  destruct (decide (key = "format")) as [->|Hkey].
  - rewrite lookup_singleton_eq. reflexivity.
  - rewrite lookup_singleton_ne; [reflexivity | congruence].
Qed.

(** ** What a returned value tells *)

Lemma run_returns_inv platform (w : World) (result : gmap string PyVal) :
  fst (get_current_time platform w) = Return result →
  ∃ user fmt formatted,
    model_validate (w_data w) = Return user
    ∧ _config (w_context w) !! "format" = Some (PyStr fmt)
    ∧ platform (w_clock w) fmt = Return formatted
    ∧ result = {[ "result" := PyStr (greeting (name user) formatted) ]}.
Proof.
  rewrite get_current_time_run.
  destruct (model_validate (w_data w)) as [user|e]; [|discriminate].
  unfold MockFSContext_get_config.
  destruct (_config (w_context w) !! "format") as [v|]; [|discriminate].
  destruct v as [ | | |fmt| | | | | | | ]; try discriminate. cbn.
  destruct (platform (w_clock w) fmt) as [formatted|e] eqn:Hrender;
    [|discriminate].
  intros [= <-]. exists user, fmt, formatted. auto.
Qed.

(** X6: the handler returns only greetings.  Whenever it returns, the
    payload validated to some name, the configuration holds a string
    pattern under [format] that the platform rendered, and the value
    returned is the one-key mapping with
    ["Hi, {name}, the current time is {formatted_time}."] under [result]. *)
Theorem returned_only_as_greeting platform (w : World)
    (result : gmap string PyVal) :
  fst (get_current_time platform w) = Return result →
  ∃ nm fmt formatted,
    model_validate (w_data w) = Return {| name := nm |}
    ∧ _config (w_context w) !! "format" = Some (PyStr fmt)
    ∧ platform (w_clock w) fmt = Return formatted
    ∧ result = {[ "result" :=
        PyStr ("Hi, " +:+ nm +:+ ", the current time is "
               +:+ formatted +:+ ".") ]}.
Proof.
  intros Hrun.
  destruct (run_returns_inv _ _ _ Hrun)
    as ([nm] & fmt & formatted & Hvalid & Hfmt & Hrender & ->).
  exists nm, fmt, formatted. auto.
Qed.

Lemma returned_only_as_greeting_witness :
  let w := enter (MockFSContext_init (PyStr "%H:%M"))
                 {[ "name" := PyStr "Alice" ]} mock_now in
  let result : gmap string PyVal :=
    {[ "result" := PyStr "Hi, Alice, the current time is 12:30." ]} in
  fst (get_current_time portable_only_strftime w) = Return result
  ∧ ∃ nm fmt formatted,
      model_validate (w_data w) = Return {| name := nm |}
      ∧ _config (w_context w) !! "format" = Some (PyStr fmt)
      ∧ portable_only_strftime (w_clock w) fmt = Return formatted
      ∧ result = {[ "result" :=
          PyStr ("Hi, " +:+ nm +:+ ", the current time is "
                 +:+ formatted +:+ ".") ]}.
Proof.
  intros w result.
  assert (Hrun : fst (get_current_time portable_only_strftime w)
                 = Return result) by (vm_compute; reflexivity).
  split; [exact Hrun |].
  exact (returned_only_as_greeting portable_only_strftime w result Hrun).
Defined.

(** ** The tests against the handler *)

Example corrected_test_passes :
  act_and_assert portable_only_strftime MockFSContext_default
    {[ "name" := PyStr "Alice" ]}
    {[ "result" :=
       PyStr "Hi, Alice, the current time is 2025-08-30 12:30:45." ]}
  = Passed.
Proof. vm_compute. reflexivity. Qed.

(** X7: both test methods end in a ValidationError, on every platform:
    their payload [{"test": "data"}] has no [name], so the handler raises
    before the assertion is reached. *)
Theorem tests_raise_validation_error platform :
  test_get_current_time_default_format platform
  = Errored (ValidationError "name" missing)
  ∧ test_get_current_time_custom_format platform
    = Errored (ValidationError "name" missing).
Proof.
  unfold test_get_current_time_default_format,
    test_get_current_time_custom_format, act_and_assert.
  rewrite !get_current_time_run. split; reflexivity.
Qed.

(** X8: no payload, accessor or platform makes an assertion of the form
    [result == {"result": "The current time is ..."}] hold: what the
    handler returns starts with ["Hi, "]. *)
Theorem unprefixed_expectation_never_passes platform
    (context : MockFSContext) (data : gmap string PyVal) (rest : string) :
  act_and_assert platform context data
    {[ "result" := PyStr ("The current time is " +:+ rest) ]}
  ≠ Passed.
Proof.
  unfold act_and_assert.
  destruct (fst (get_current_time platform (enter context data mock_now)))
    as [result|e] eqn:Hrun; [|discriminate].
  destruct (decide (result = _)) as [Heq|]; [|discriminate].
  destruct (run_returns_inv _ _ _ Hrun)
    as (user & fmt & formatted & _ & _ & _ & Hresult).
  rewrite Hresult in Heq.
  apply (f_equal (λ m : gmap string PyVal, m !! "result")) in Heq.
  rewrite !lookup_singleton_eq in Heq. discriminate Heq.
Qed.

(** ** The script around the wrapper *)

(** The wrapper with its function object constructed, outcome by
    outcome. *)
Lemma main_run (start_outcome close_outcome : Outcome unit)
    (str : PyExc → string) (log : list Event) :
  main (Return ()) start_outcome close_outcome str log
  = (match close_outcome, start_outcome with
     | Raise e', _ => Raise e'
     | Return _, Raise e => if isinstance_Exception e then Return () else Raise e
     | Return _, Return _ => Return ()
     end,
     log
     ++ [Constructed ["getCurrentTime"];
         Printed "Starting agent function service...";
         Awaited_start]
     ++ match start_outcome with
        | Raise e =>
          if isinstance_Exception e then [Printed (error_line str e)] else []
        | Return _ => []
        end
     ++ [Awaited_close]).
Proof.
  unfold main, try_finally, try_except, mbind, M_bind, emit, print,
    FSFunction_new, function_start, function_close.
  destruct start_outcome as [[]|e], close_outcome as [[]|e']; cbn;
    try destruct (isinstance_Exception e); cbn;
    rewrite <- ?app_assoc; reflexivity.
Qed.

(** X9: a failure of [close()] is neither caught nor printed anywhere.
    When awaiting [close()] raises an [Exception], the script ends by
    raising it, whatever [start()] did (an exception [start()] raised is
    lost behind it), and [close()] was the last thing done. *)
Theorem shutdown_failure_escapes (start_outcome : Outcome unit)
    (str : PyExc → string) (interrupted : bool) (log : list Event)
    (e : PyExc) :
  isinstance_Exception e = true →
  script (Return ()) start_outcome (Raise e) str interrupted log
  = (Raise e,
     log
     ++ [Constructed ["getCurrentTime"];
         Printed "Starting agent function service...";
         Awaited_start]
     ++ match start_outcome with
        | Raise e0 =>
          if isinstance_Exception e0 then [Printed (error_line str e0)] else []
        | Return _ => []
        end
     ++ [Awaited_close]).
Proof.
  intros He. unfold script, try_except, asyncio_run. rewrite main_run.
  destruct e; try discriminate He; reflexivity.
Qed.

Lemma shutdown_failure_escapes_witness :
  isinstance_Exception ConnectionError = true
  ∧ script (Return ()) (Raise KeyboardInterrupt) (Raise ConnectionError)
      (λ _, "") false []
    = (Raise ConnectionError,
       [Constructed ["getCurrentTime"];
        Printed "Starting agent function service...";
        Awaited_start; Awaited_close]).
Proof.
  split; [reflexivity |].
  exact (shutdown_failure_escapes (Raise KeyboardInterrupt) (λ _, "") false []
           ConnectionError eq_refl).
Defined.

(** X10: a KeyboardInterrupt that leaves the wrapper, raised by
    [close()] or raised by [start()] with [close()] returning, ends in the
    [__main__] block: the script returns normally and prints
    ["Service stopped"] last, after [close()] has been awaited. *)
Theorem interrupt_stops_service (start_outcome close_outcome : Outcome unit)
    (str : PyExc → string) (interrupted : bool) (log : list Event) :
  close_outcome = Raise KeyboardInterrupt
  ∨ (close_outcome = Return () ∧ start_outcome = Raise KeyboardInterrupt) →
  ∃ before,
    script (Return ()) start_outcome close_outcome str interrupted log
    = (Return (),
       log ++ before
       ++ [Awaited_close; Printed (String "010" "Service stopped")])
    ∧ Awaited_start ∈ before.
Proof.
  intros Hinterrupt. unfold script, try_except, asyncio_run. rewrite main_run.
  destruct Hinterrupt as [-> | [-> ->]]; cbn.
  - exists ([Constructed ["getCurrentTime"];
             Printed "Starting agent function service..."; Awaited_start]
            ++ match start_outcome with
               | Raise e =>
                 if isinstance_Exception e
                 then [Printed (error_line str e)] else []
               | Return _ => []
               end).
    split; [unfold print, emit; f_equal; rewrite <- app_assoc; f_equal; cbn;
            do 3 f_equal; rewrite <- app_assoc; reflexivity |].
    do 2 apply list_elem_of_further. apply list_elem_of_here.
  - exists [Constructed ["getCurrentTime"];
            Printed "Starting agent function service..."; Awaited_start].
    split; [unfold print, emit; rewrite <- app_assoc; reflexivity |].
    do 2 apply list_elem_of_further. apply list_elem_of_here.
Qed.

Lemma interrupt_stops_service_witness :
  let start_outcome : Outcome unit := Return () in
  let close_outcome : Outcome unit := Raise KeyboardInterrupt in
  (close_outcome = Raise KeyboardInterrupt
   ∨ (close_outcome = Return () ∧ start_outcome = Raise KeyboardInterrupt))
  ∧ ∃ before,
      script (Return ()) start_outcome close_outcome (λ _, "") false []
      = (Return (),
         [] ++ before
         ++ [Awaited_close; Printed (String "010" "Service stopped")])
      ∧ Awaited_start ∈ before.
Proof.
  intros start_outcome close_outcome.
  assert (Hinterrupt :
            close_outcome = Raise KeyboardInterrupt
            ∨ (close_outcome = Return ()
               ∧ start_outcome = Raise KeyboardInterrupt))
    by (left; reflexivity).
  split; [exact Hinterrupt |].
  exact (interrupt_stops_service start_outcome close_outcome (λ _, "") false
           [] Hinterrupt).
Defined.

(** X11: the service stopped by a SIGINT (Python 3.11 and later).  The
    runner cancels the main task, so awaiting [start()] raises a
    CancelledError, which the wrapper does not catch; [close()] is awaited
    and returns, [asyncio.run] raises KeyboardInterrupt, and the script
    prints ["Service stopped"] and returns normally, with no error line. *)
Theorem sigint_stops_service (str : PyExc → string) (log : list Event) :
  script (Return ()) (Raise CancelledError) (Return ()) str true log
  = (Return (),
     log
     ++ [Constructed ["getCurrentTime"];
         Printed "Starting agent function service...";
         Awaited_start; Awaited_close;
         Printed (String "010" "Service stopped")]).
Proof.
  unfold script, try_except, asyncio_run. rewrite main_run. cbn.
  unfold print, emit. rewrite <- app_assoc. reflexivity.
Qed.
